(** * Organic scoring endpoint and validator start-up

    A shallow embedding of [prompting/api/scoring/api.py] (the signature check
    [verify_scoring_signature] and the [/scoring] handler [score_response]) and
    of [neurons/validator.py] (the constructor [Validator.__init__]), followed
    by the properties established about them.

    Python objects are modelled by the type [value]; a raised exception and the
    [return] statement are outcomes of a small monad that also records the
    calls to the logger and to [task_scorer.add_to_queue], in program order. *)

From Stdlib Require Import ZArith List String Ascii Bool Lia Sorted.
From Stdlib Require Import PrimFloat FloatOps SpecFloat DecimalString.
Import ListNotations.
Local Open Scope string_scope.
Local Open Scope list_scope.
Local Open Scope Z_scope.
Local Set Warnings "-register-all".

(** ** Python values and the builtins the two files use *)

Module Py.

(** The objects that reach the code: what [request.json()] yields (None,
    booleans, integers, floats, text, lists, dicts) and [bytes] for a raw
    request body.  A dict is the list of its items in insertion order, the
    order in which [for k in d] visits its keys; the keys are text, as in
    JSON, and a key is looked up from the front. *)
Inductive value : Type :=
| VNone
| VBool (b : bool)
| VInt (z : Z)
| VFloat (f : float)
| VStr (s : string)
| VBytes (b : string)
| VList (l : list value)
| VDict (items : list (string * value)).

(** The exception classes the modelled expressions raise; all derive from
    [Exception], so an [except Exception] clause catches each of them. *)
Inductive exn : Type :=
| AttributeError
| TypeError
| ValueError
| IndexError
| KeyError
| OverflowError
| NameError (name : string).

(** Result of evaluating an expression without side effects. *)
Definition res (A : Type) : Type := (exn + A)%type.

Definition res_bind {A B} (m : res A) (k : A -> res B) : res B :=
  match m with
  | inl e => inl e
  | inr a => k a
  end.

Fixpoint res_mapM {A B} (f : A -> res B) (l : list A) : res (list B) :=
  match l with
  | [] => inr []
  | x :: xs =>
      res_bind (f x) (fun y =>
      res_bind (res_mapM f xs) (fun ys => inr (y :: ys)))
  end.

(** [bool(v)], as used by [not v] and [if v:]. *)
Definition truthy (v : value) : bool :=
  match v with
  | VNone => false
  | VBool b => b
  | VInt z => negb (z =? 0)
  | VFloat f => negb (PrimFloat.eqb f 0%float)
  | VStr s => negb (String.eqb s "")
  | VBytes b => negb (String.eqb b "")
  | VList l => match l with [] => false | _ :: _ => true end
  | VDict d => match d with [] => false | _ :: _ => true end
  end.

Fixpoint dict_lookup (k : string) (d : list (string * value)) : option value :=
  match d with
  | [] => None
  | (k', v) :: d' => if String.eqb k k' then Some v else dict_lookup k d'
  end.

(** [obj.get(k, default)]: only a dict has the method. *)
Definition py_get (obj : value) (k : string) (default : value) : res value :=
  match obj with
  | VDict d =>
      match dict_lookup k d with
      | Some v => inr v
      | None => inr default
      end
  | _ => inl AttributeError
  end.

(** [obj[0]]. *)
Definition py_getitem0 (obj : value) : res value :=
  match obj with
  | VList l => match l with [] => inl IndexError | x :: _ => inr x end
  | VStr s =>
      match s with
      | EmptyString => inl IndexError
      | String c _ => inr (VStr (String c EmptyString))
      end
  | VBytes b =>
      match b with
      | EmptyString => inl IndexError
      | String c _ => inr (VInt (Z.of_N (N_of_ascii c)))
      end
  | VDict _ => inl KeyError
  | _ => inl TypeError
  end.

(** [obj[k]] for a text key [k]. *)
Definition py_getitem_str (obj : value) (k : string) : res value :=
  match obj with
  | VDict d =>
      match dict_lookup k d with
      | Some v => inr v
      | None => inl KeyError
      end
  | _ => inl TypeError
  end.

(** The elements [for x in obj] visits. *)
Definition py_iter (obj : value) : res (list value) :=
  match obj with
  | VList l => inr l
  | VStr s =>
      inr (map (fun c => VStr (String c EmptyString)) (list_ascii_of_string s))
  | VBytes b =>
      inr (map (fun c => VInt (Z.of_N (N_of_ascii c))) (list_ascii_of_string b))
  | VDict d => inr (map (fun kv => VStr (fst kv)) d)
  | _ => inl TypeError
  end.

(** [v == s] for a text literal [s]. *)
Definition py_eq_str (v : value) (s : string) : bool :=
  match v with
  | VStr s' => String.eqb s' s
  | _ => false
  end.

(** [v is not None]. *)
Definition is_not_None (v : value) : bool :=
  match v with
  | VNone => false
  | _ => true
  end.

(** [int(f)] for a float: truncation toward zero. *)
Definition float_to_int (f : float) : res Z :=
  match Prim2SF f with
  | S754_zero _ => inr 0
  | S754_infinity _ => inl OverflowError
  | S754_nan => inl ValueError
  | S754_finite s m e =>
      let magnitude :=
        if 0 <=? e then Z.pos m * 2 ^ e else Z.pos m / 2 ^ (- e) in
      inr (if s then - magnitude else magnitude)
  end.

(** [str(n)] for an integer. *)
Definition str_of_int (n : Z) : string := NilZero.string_of_int (Z.to_int n).

Section Builtins.

(** The text-to-integer conversions of [int()], which belong to the
    interpreter: [None] stands for [ValueError]. *)
Variable int_of_str : string -> option Z.
Variable int_of_bytes : string -> option Z.

(** [int(v)]. *)
Definition py_int (v : value) : res Z :=
  match v with
  | VInt z => inr z
  | VBool b => inr (if b then 1 else 0)
  | VFloat f => float_to_int f
  | VStr s =>
      match int_of_str s with Some z => inr z | None => inl ValueError end
  | VBytes b =>
      match int_of_bytes b with Some z => inr z | None => inl ValueError end
  | _ => inl TypeError
  end.

End Builtins.

End Py.

(** ** Statements: outcomes and recorded calls *)

Module Eff.
Import Py.

(** How a block of statements ends: it falls through with a value, it executes
    [return] (the handlers below return nothing), or it raises. *)
Inductive outcome (A : Type) : Type :=
| Ok (a : A)
| Ret
| Exc (e : exn).
Arguments Ok {A} a.
Arguments Ret {A}.
Arguments Exc {A} e.

(** A block yields the calls it made, oldest first, and its outcome. *)
Definition run (E A : Type) : Type := (list E * outcome A)%type.

Definition ret {E A} (a : A) : run E A := ([], Ok a).

Definition bind {E A B} (m : run E A) (k : A -> run E B) : run E B :=
  match snd m with
  | Ok a => (fst m ++ fst (k a), snd (k a))
  | Ret => (fst m, Ret)
  | Exc e => (fst m, Exc e)
  end.

(** One recorded call. *)
Definition emit {E} (e : E) : run E unit := ([e], Ok tt).

(** An expression without side effects, evaluated inside a block. *)
Definition pure {E A} (r : res A) : run E A :=
  match r with
  | inl e => ([], Exc e)
  | inr a => ([], Ok a)
  end.

(** The [return] statement. *)
Definition return_ {E A} : run E A := ([], Ret).

(** [try: body  except Exception as ex: handler ex]. *)
Definition try_except {E A} (body : run E A) (handler : exn -> run E A)
  : run E A :=
  match snd body with
  | Exc e => (fst body ++ fst (handler e), snd (handler e))
  | _ => body
  end.

Definition calls {E A} (m : run E A) : list E := fst m.
Definition result {E A} (m : run E A) : outcome A := snd m.

Module Notations.
Notation "x <- m ;; k" := (bind m (fun x => k))
  (at level 61, m at next level, right associativity).
Notation "m ;; k" := (bind m (fun _ => k))
  (at level 61, right associativity).
End Notations.

End Eff.

(** ** [prompting/api/scoring/api.py] *)

Module ScoringApi.
Import Py Eff Eff.Notations.

(** What the handler calls and other modules define.  [get_model_by_id] is
    [ModelZoo.get_model_by_id], which raises when the identifier is unknown;
    [int_of_str] and [int_of_bytes] are the conversions of text by the builtin
    [int]. *)
Class Collaborators : Type := {
  ModelConfig : Type;
  get_model_by_id : value -> res ModelConfig;
  int_of_str : string -> option Z;
  int_of_bytes : string -> option Z
}.

(** The names that lines 38-44 of [verify_scoring_signature] read and that
    are neither parameters nor builtins: they are looked up among the names
    of the module when the line runs, and an unbound one raises NameError.
    [name_sha256] is what [sha256(b).hexdigest()] gives for the object bound
    to [sha256]; [name_uuid], [name_timestamp] and [name_signed_for] are the
    texts an f-string shows for the objects bound to these names;
    [name_Keypair address message signature] is
    [Keypair(ss58_address=address).verify(message, signature)], which answers
    with a boolean or raises. *)
Record Namespace : Type := {
  name_sha256 : option (string -> res string);
  name_uuid : option string;
  name_timestamp : option string;
  name_signed_for : option string;
  name_Keypair : option (string -> string -> string -> res bool)
}.

(** The names as [api.py] binds them: [import uuid] binds [uuid] to the
    module, shown as [uuid_repr] ([<module 'uuid' from ...>]); no line of the
    file imports or assigns [sha256], [timestamp], [signed_for] or
    [Keypair]. *)
Definition api_namespace (uuid_repr : string) : Namespace := {|
  name_sha256 := None;
  name_uuid := Some uuid_repr;
  name_timestamp := None;
  name_signed_for := None;
  name_Keypair := None
|}.

(** The fields of [shared_settings] that the file reads; [METAGRAPH_block] is
    [shared_settings.METAGRAPH.block] at the time of the request. *)
Record Settings : Type := {
  API_HOTKEY : string;
  NEURON_TIMEOUT : value;
  SAMPLING_PARAMS : value;
  METAGRAPH_block : Z
}.

Inductive level : Type := INFO | WARNING | ERROR.

Section Api.

Context {C : Collaborators}.
Variable shared_settings : Settings.

(** *** Task objects and what is handed to the scorer

    The classes are declared in other modules; here they are the records of
    the keyword arguments the handler passes, and building one is taken to
    succeed.  (A constructor that rejected its arguments would raise while
    the arguments of [add_to_queue] are evaluated, before the call.) *)

Record InferenceTask : Type := {
  inf_messages : value;
  inf_llm_model : option ModelConfig;
  inf_llm_model_id : value;
  inf_seed : Z;
  inf_sampling_params : value;
  inf_query : value
}.

Record WebRetrievalTask : Type := {
  web_messages : list value;
  web_seed : Z;
  web_sampling_params : value;
  web_query : value
}.

Inductive Task : Type :=
| TInference (t : InferenceTask)
| TWebRetrieval (t : WebRetrievalTask).

Record SynapseStreamResult : Type := {
  accumulated_chunks : value
}.

Record DendriteResponseEvent : Type := {
  uids : value;
  stream_results : list SynapseStreamResult;
  timeout : value
}.

Inductive DatasetEntryT : Type :=
| DatasetEntry
| DDGDatasetEntry (search_term : value).

(** The keyword arguments of one [task_scorer.add_to_queue] call. *)
Record QueueEntry : Type := {
  task : Task;
  response : DendriteResponseEvent;
  dataset_entry : DatasetEntryT;
  block : Z;
  step : Z;
  task_id : string
}.

(** The calls the handler makes: [logger.<level>(text)], with the f-string
    kept as written, and [task_scorer.add_to_queue(...)]. *)
Inductive call : Type :=
| Log (lvl : level) (text : string)
| AddToQueue (entry : QueueEntry).

Definition log (lvl : level) (text : string) : run call unit :=
  emit (Log lvl text).

Definition add_to_queue (entry : QueueEntry) : run call unit :=
  emit (AddToQueue entry).

(** *** [verify_scoring_signature] *)

(** The value of a module-level name, or NameError. *)
Definition lookup_name {A} (n : string) (binding : option A) : res A :=
  match binding with
  | Some a => inr a
  | None => inl (NameError n)
  end.

(** Line 38: [f"{digest}.{uuid}.{timestamp}.{signed_for}"], [digest] being
    [sha256(body).hexdigest()]. *)
Definition message_to_verify (digest uuid timestamp signed_for : string)
  : string :=
  (digest ++ "." ++ uuid ++ "." ++ timestamp ++ "." ++ signed_for)%string.

(** The five texts the function can return. *)
Definition invalid_signature_type : string := "Invalid signature type".
Definition body_not_bytes : string := "Body is not of type bytes".
Definition invalid_signed_by : string := "Invalid 'signed_by' address".
Definition unexpected_address : string :=
  "Message not from the expected SS58 address".
Definition signature_mismatch : string := "Signature mismatch".

(** Lines 20-48.  The expressions of the f-string are evaluated from left to
    right, then [Keypair] is looked up and called. *)
Definition verify_scoring_signature (names : Namespace)
    (signature body signed_by : value) : res (option string) :=
  match signature with
  | VStr signature_text =>
      match body with
      | VBytes raw =>
          match signed_by with
          | VStr address =>
              if negb (String.eqb address (API_HOTKEY shared_settings))
              then inr (Some unexpected_address)
              else
                res_bind (lookup_name "sha256" (name_sha256 names))
                  (fun sha256_hexdigest =>
                res_bind (sha256_hexdigest raw) (fun digest =>
                res_bind (lookup_name "uuid" (name_uuid names)) (fun uuid =>
                res_bind (lookup_name "timestamp" (name_timestamp names))
                  (fun timestamp =>
                res_bind (lookup_name "signed_for" (name_signed_for names))
                  (fun signed_for =>
                let message :=
                  message_to_verify digest uuid timestamp signed_for in
                res_bind (lookup_name "Keypair" (name_Keypair names))
                  (fun keypair_verify =>
                res_bind (keypair_verify address message signature_text)
                  (fun verified =>
                if negb verified then inr (Some signature_mismatch)
                else inr None)))))))
          | _ => inr (Some invalid_signed_by)
          end
      | _ => inr (Some body_not_bytes)
      end
  | _ => inr (Some invalid_signature_type)
  end.

(** *** [score_response] *)

Definition to_int (v : value) : res Z := py_int int_of_str int_of_bytes v.

(** Lines 76-98: the branch [task_name == "InferenceTask"]. *)
Definition inference_branch (body timeout chunks : value) (uids : list Z)
    (llm_model : option ModelConfig) (uuid4 : string) : run call unit :=
  log INFO "Received Organic InferenceTask with body: {body}" ;;
  log INFO "With model of type {type(body.get('model'))}" ;;
  messages <- pure (py_get body "messages" VNone) ;;
  llm_model_id <- pure (py_get body "model" VNone) ;;
  seed <- pure (res_bind (py_get body "seed" (VInt 0)) to_int) ;;
  sampling_params <-
    pure (py_get body "sampling_parameters"
            (SAMPLING_PARAMS shared_settings)) ;;
  query <- pure (py_get body "messages" VNone) ;;
  let organic_task :=
    TInference {| inf_messages := messages;
                  inf_llm_model := llm_model;
                  inf_llm_model_id := llm_model_id;
                  inf_seed := seed;
                  inf_sampling_params := sampling_params;
                  inf_query := query |} in
  log INFO "Task created: {organic_task}" ;;
  results <-
    pure (res_mapM
            (fun uid =>
               res_bind (py_get chunks (str_of_int uid) VNone) (fun c =>
               inr {| accumulated_chunks := c |}))
            uids) ;;
  add_to_queue
    {| task := organic_task;
       response := {| uids := VList (map VInt uids);
                      stream_results := results;
                      timeout := timeout |};
       dataset_entry := DatasetEntry;
       block := METAGRAPH_block shared_settings;
       step := -1;
       task_id := uuid4 |}.

(** Line 102: [body.get("messages")[0].get("content")]. *)
Definition extract_search_term (body : value) : res value :=
  res_bind (py_get body "messages" VNone) (fun messages =>
  res_bind (py_getitem0 messages) (fun first =>
  py_get first "content" VNone)).

(** Lines 100-125: the branch [task_name == "WebRetrievalTask"]. *)
Definition web_retrieval_branch (body chunks : value) (uids : list Z)
    (uuid4 : string) : run call unit :=
  log INFO "Received Organic WebRetrievalTask with body: {body}" ;;
  search_term <-
    try_except
      (pure (extract_search_term body))
      (fun ex =>
         log ERROR
           "Failed to get search term from messages: {ex}, can't score WebRetrievalTask" ;;
         return_) ;;
  msgs <- pure (res_bind (py_get body "messages" VNone) py_iter) ;;
  messages <-
    pure (res_mapM (fun msg => py_getitem_str msg "content") msgs) ;;
  seed <- pure (res_bind (py_get body "seed" (VInt 0)) to_int) ;;
  sampling_params <- pure (py_get body "sampling_params" (VDict [])) ;;
  let web_task :=
    TWebRetrieval {| web_messages := messages;
                     web_seed := seed;
                     web_sampling_params := sampling_params;
                     web_query := search_term |} in
  chunk_items <- pure (py_iter chunks) ;;
  body_timeout <-
    pure (py_get body "timeout" (NEURON_TIMEOUT shared_settings)) ;;
  add_to_queue
    {| task := web_task;
       response :=
         {| uids := VList [VList (map VInt uids)];
            stream_results :=
              [ {| accumulated_chunks :=
                     VList (filter is_not_None chunk_items) |} ];
            timeout := body_timeout |};
       dataset_entry := DDGDatasetEntry search_term;
       block := METAGRAPH_block shared_settings;
       step := -1;
       task_id := uuid4 |}.

(** Lines 74-126: the dispatch on [body.get("task")] and the closing log
    line, which every path that has not returned reaches. *)
Definition dispatch (body timeout chunks : value) (uids : list Z)
    (llm_model : option ModelConfig) (uuid4 : string) : run call unit :=
  task_name <- pure (py_get body "task" VNone) ;;
  (if py_eq_str task_name "InferenceTask"
   then inference_branch body timeout chunks uids llm_model uuid4
   else if py_eq_str task_name "WebRetrievalTask"
   then web_retrieval_branch body chunks uids uuid4
   else ret tt) ;;
  log INFO "Organic task appended to scoring queue".

(** The handler of [POST /scoring], entered once the [verify_signature]
    dependency has let the request through.  [payload] is what
    [request.json()] gave and [uuid4] the text of the identifier that
    [uuid.uuid4()] draws if the handler asks for one. *)
Definition score_response (payload : value) (uuid4 : string)
  : run call unit :=
  body <- pure (py_get payload "body" VNone) ;;
  timeout <-
    pure (py_get payload "timeout" (NEURON_TIMEOUT shared_settings)) ;;
  uids <- pure (py_get payload "uid" (VList [])) ;;
  chunks <- pure (py_get payload "chunks" (VDict [])) ;;
  (if negb (truthy uids) || negb (truthy chunks)
   then
     log ERROR
       "Either uids: {uids} or chunks: {chunks} is not valid, skipping scoring" ;;
     return_
   else ret tt) ;;
  uids <- pure (res_bind (py_iter uids) (res_mapM to_int)) ;;
  model <- pure (py_get body "model" VNone) ;;
  llm_model <-
    (if truthy model
     then
       try_except
         (llm_model <- pure (get_model_by_id model) ;; ret tt)
         (fun _ =>
            log WARNING
              "Organic request with model {body.get('model')} made but the model cannot be found in model zoo. Skipping scoring.") ;;
       return_
     else ret None) ;;
  dispatch body timeout chunks uids llm_model uuid4.

(** *** What is observed of a run *)

(** The [add_to_queue] calls among recorded calls. *)
Fixpoint enqueued_of (cs : list call) : list QueueEntry :=
  match cs with
  | [] => []
  | AddToQueue e :: cs' => e :: enqueued_of cs'
  | Log _ _ :: cs' => enqueued_of cs'
  end.

Definition enqueued {A} (m : run call A) : list QueueEntry :=
  enqueued_of (calls m).

(** Every entry a block hands to the scorer satisfies [P]. *)
Definition all_enqueued (P : QueueEntry -> Prop) {A} (m : run call A) : Prop :=
  Forall P (enqueued m).

(** The handler raised, or logged at error or warning level. *)
Definition signals_error (m : run call unit) : Prop :=
  (exists e, result m = Exc e) \/
  (exists text, In (Log ERROR text) (calls m) \/ In (Log WARNING text) (calls m)).

(** The same, as a test on one call and on an outcome. *)
Definition is_quiet (c : call) : bool :=
  match c with
  | Log ERROR _ => false
  | Log WARNING _ => false
  | _ => true
  end.

Definition not_raised {A} (o : outcome A) : bool :=
  match o with
  | Exc _ => false
  | _ => true
  end.

Definition closing_log : call :=
  Log INFO "Organic task appended to scoring queue".

(** The request passes lines 54-73: the payload and its body are dicts, the
    peer list and the chunks are non-empty, every peer identifier converts
    to an integer, and the body names no model. *)
Definition reaches_dispatch (payload body timeout chunks : value)
    (ints : list Z) : Prop :=
  py_get payload "body" VNone = inr body /\
  py_get payload "timeout" (NEURON_TIMEOUT shared_settings) = inr timeout /\
  (exists uids,
      py_get payload "uid" (VList []) = inr uids /\ truthy uids = true /\
      res_bind (py_iter uids) (res_mapM to_int) = inr ints) /\
  py_get payload "chunks" (VDict []) = inr chunks /\ truthy chunks = true /\
  (exists model, py_get body "model" VNone = inr model /\ truthy model = false).

(** The task discriminator and the search term of a payload, read the way
    the handler reads them. *)
Definition payload_task (payload : value) : res value :=
  res_bind (py_get payload "body" VNone) (fun body =>
  py_get body "task" VNone).

Definition payload_search_term (payload : value) : res value :=
  res_bind (py_get payload "body" VNone) extract_search_term.

(** [chunks.get(str(uid), None)] on a dict. *)
Definition chunks_of (items : list (string * value)) (uid : Z) : value :=
  match dict_lookup (str_of_int uid) items with
  | Some c => c
  | None => VNone
  end.

(** What lines 78-98 and 107-125 pair in one entry: an inference task, whose
    query is its messages and which carries no model, with the empty dataset
    entry; a web-retrieval task with the dataset entry of its query, which is
    the content of its first message. *)
Definition well_paired (e : QueueEntry) : Prop :=
  match task e, dataset_entry e with
  | TInference t, DatasetEntry =>
      inf_query t = inf_messages t /\ inf_llm_model t = None /\
      truthy (inf_llm_model_id t) = false
  | TWebRetrieval t, DDGDatasetEntry s =>
      s = web_query t /\ hd_error (web_messages t) = Some (web_query t)
  | _, _ => False
  end.

(** A block enqueues nothing, or exactly one entry, identified by [uuid4] and
    satisfying [P], and then ends normally. *)
Definition one_entry_or_none (uuid4 : string) (P : QueueEntry -> Prop)
    (m : run call unit) : Prop :=
  enqueued m = [] \/
  exists e, enqueued m = [e] /\ task_id e = uuid4 /\ P e /\ result m = Ok tt.

End Api.

End ScoringApi.

(** ** [neurons/validator.py] *)

Module ValidatorNeuron.
Import Py.

(** [config.neuron]: the task names and their sampling probabilities, which
    are floats. *)
Record NeuronConfig : Type := {
  tasks : list string;
  task_p : list float
}.

(** [RewardPipeline(selected_tasks=...)], declared in [prompting.rewards]. *)
Record RewardPipeline : Type := {
  selected_tasks : list string
}.

(** The attributes that lines 47-59 of the constructor set. *)
Record Validator : Type := {
  active_tasks : list string;
  reward_pipeline : RewardPipeline
}.

(** The builtin [sum]: the items are added from left to right, starting
    from 0, in binary64 arithmetic.  (From Python 3.12 on [sum] compensates
    the rounding of floats; the weights evaluated below get the same total
    either way.) *)
Definition py_sum (l : list float) : float :=
  fold_left PrimFloat.add l 0%float.

(** [zip(xs, ys)] stops at the end of the shorter list. *)
Fixpoint py_zip {A B} (xs : list A) (ys : list B) : list (A * B) :=
  match xs, ys with
  | x :: xs', y :: ys' => (x, y) :: py_zip xs' ys'
  | _, _ => []
  end.

(** Lines 47-59 of [Validator.__init__], run once the base-class constructor,
    [load_state] and [load_pipeline] have completed; the log call of line 60
    is left out.  An exception is its class with its message. *)
Definition Validator_init (neuron : NeuronConfig) : (exn * string) + Validator :=
  if negb (PrimFloat.eqb (py_sum (task_p neuron)) 1%float)
  then inl (ValueError, "Task probabilities do not sum to 1.")
  else
    let active :=
      map fst
        (filter (fun tp => PrimFloat.ltb 0%float (snd tp))
           (py_zip (tasks neuron) (task_p neuron))) in
    inr {| active_tasks := active;
           reward_pipeline := {| selected_tasks := active |} |}.

(** The exact value of a finite float, scaled by [2 ^ 1074]: an integer,
    since every finite binary64 value is a multiple of [2 ^ -1074]. *)
Definition scaled_value (f : float) : option Z :=
  match Prim2SF f with
  | S754_zero _ => Some 0
  | S754_finite s m e =>
      Some ((if s then -1 else 1) * Z.pos m * 2 ^ (e + 1074))
  | _ => None
  end.

Fixpoint scaled_sum (l : list float) : option Z :=
  match l with
  | [] => Some 0
  | f :: l' =>
      match scaled_value f, scaled_sum l' with
      | Some z, Some total => Some (z + total)
      | _, _ => None
      end
  end.

(** Follows the specification's words: the weights sum to 1, as numbers and
    without rounding. *)
Definition spec_weights_sum_to_one (neuron : NeuronConfig) : Prop :=
  scaled_sum (task_p neuron) = Some (2 ^ 1074).

(** The task at position [i] of the configuration is [t], it has a
    probability, and that probability is above zero. *)
Definition positive_at (neuron : NeuronConfig) (i : nat) (t : string) : Prop :=
  exists p, nth_error (tasks neuron) i = Some t /\
            nth_error (task_p neuron) i = Some p /\
            PrimFloat.ltb 0%float p = true.

End ValidatorNeuron.

(** ** A concrete deployment, for running the code on inputs *)

Module Sample.
Import Py Eff ScoringApi.

(** Plain decimal digits, enough for the identifiers used below. *)
Fixpoint decimal_digits (s : string) (acc : Z) : option Z :=
  match s with
  | EmptyString => Some acc
  | String c s' =>
      let n := Z.of_N (N_of_ascii c) in
      if (48 <=? n) && (n <=? 57)
      then decimal_digits s' (10 * acc + (n - 48))
      else None
  end.

Definition decimal (s : string) : option Z :=
  match s with
  | EmptyString => None
  | _ => decimal_digits s 0
  end.

(** A registry that knows one model. *)
Definition collaborators : Collaborators := {|
  ModelConfig := string;
  get_model_by_id := fun v =>
    if py_eq_str v "known-model" then inr "config of known-model"
    else inl KeyError;
  int_of_str := decimal;
  int_of_bytes := decimal
|}.

#[local] Existing Instance collaborators.

Definition settings : Settings := {|
  API_HOTKEY := "5TrustedHotkey";
  NEURON_TIMEOUT := VInt 15;
  SAMPLING_PARAMS := VDict [("temperature", VInt 1)];
  METAGRAPH_block := 4242
|}.

Definition request (body : list (string * value)) (uid chunks : value) : value :=
  VDict [("body", VDict body); ("uid", uid); ("chunks", chunks)].

(** Peers 1, 2 and 3 were asked; peers 1 and 3 answered. *)
Definition three_uids : value := VList [VInt 1; VInt 2; VInt 3].
Definition two_answers : value :=
  VDict [("1", VList [VStr "a"; VStr "b"]); ("3", VList [VStr "c"])].

Definition one_message : value :=
  VList [VDict [("role", VStr "user"); ("content", VStr "rocq prover")]].

Definition inference_request (model : list (string * value)) : value :=
  request ([("task", VStr "InferenceTask"); ("messages", one_message)] ++ model)
    three_uids two_answers.

Definition web_retrieval_request (messages : value) : value :=
  request [("task", VStr "WebRetrievalTask"); ("messages", messages)]
    three_uids two_answers.

Definition other_kind_request : value :=
  request [("task", VStr "SummarizationTask"); ("messages", one_message)]
    three_uids two_answers.

Definition no_peer_request : value :=
  request [("task", VStr "InferenceTask"); ("messages", one_message)]
    (VList []) two_answers.

(** A peer list whose only element is [null]. *)
Definition null_peer_request : value :=
  request [("task", VStr "InferenceTask"); ("messages", one_message)]
    (VList [VNone]) two_answers.

(** A web-retrieval request whose chunks are a list with a gap. *)
Definition gapped_chunks_request : value :=
  request [("task", VStr "WebRetrievalTask"); ("messages", one_message);
           ("timeout", VInt 3)]
    (VList [VInt 7]) (VList [VStr "a"; VNone; VStr "b"]).

End Sample.

(** * Properties *)

(** ** Laws of the statement monad *)

Module EffFacts.
Import Py Eff.

Lemma bind_ret {E A B} (a : A) (k : A -> run E B) : bind (ret a) k = k a.
Proof. unfold bind, ret; simpl. destruct (k a); reflexivity. Qed.

Lemma bind_pure_inr {E A B} (a : A) (k : A -> run E B) :
  bind (pure (inr a)) k = k a.
Proof. apply bind_ret. Qed.

Lemma bind_pure_inl {E A B} (e : exn) (k : A -> run E B) :
  bind (pure (inl e)) k = ([], Exc e).
Proof. reflexivity. Qed.

Lemma bind_assoc {E A B D} (m : run E A) (k : A -> run E B) (h : B -> run E D) :
  bind (bind m k) h = bind m (fun a => bind (k a) h).
Proof.
  destruct m as [cs [a | | e]]; unfold bind; simpl; try reflexivity.
  destruct (k a) as [cs' [b | | e']]; simpl; try reflexivity.
  now rewrite app_assoc.
Qed.

Lemma calls_bind {E A B} (m : run E A) (k : A -> run E B) :
  calls (bind m k) =
  calls m ++ match result m with Ok a => calls (k a) | _ => [] end.
Proof.
  destruct m as [cs [a | | e]]; unfold bind, calls, result; simpl;
    now rewrite ?app_nil_r.
Qed.

Lemma calls_pure {E A} (r : res A) : calls (@pure E A r) = [].
Proof. now destruct r. Qed.

Lemma calls_try_except {E A} (body : run E A) (handler : exn -> run E A) :
  calls (try_except body handler) =
  calls body ++ match result body with Exc e => calls (handler e) | _ => [] end.
Proof.
  destruct body as [cs [a | | e]]; unfold try_except, calls, result; simpl;
    now rewrite ?app_nil_r.
Qed.

Lemma res_mapM_total {A B} (f : A -> res B) (g : A -> B) (l : list A) :
  (forall x, f x = inr (g x)) -> res_mapM f l = inr (map g l).
Proof.
  intros Hf. induction l as [| x l IH]; simpl; [reflexivity |].
  now rewrite Hf, IH.
Qed.

Lemma py_get_dict items k default :
  exists v, py_get (VDict items) k default = inr v.
Proof. simpl. destruct (dict_lookup k items); eauto. Qed.

Lemma py_eq_str_true v s : py_eq_str v s = true <-> v = VStr s.
Proof.
  destruct v; simpl; split; try discriminate.
  - intros H. apply String.eqb_eq in H. now subst.
  - intros H. injection H as ->. apply String.eqb_refl.
Qed.

Lemma py_eq_str_false v s : py_eq_str v s = false <-> v <> VStr s.
Proof.
  rewrite <- py_eq_str_true. destruct (py_eq_str v s); intuition congruence.
Qed.

End EffFacts.

(** ** The scoring endpoint, for any collaborators and settings *)

Module ScoringFacts.
Import Py Eff ScoringApi EffFacts.

Section WithDeployment.

Context {C : Collaborators}.
Variable shared_settings : Settings.

(** *** Which calls reach the queue *)

Lemma enqueued_of_app (xs ys : list call) :
  enqueued_of (xs ++ ys) = enqueued_of xs ++ enqueued_of ys.
Proof.
  induction xs as [| [lvl text | e] xs IH]; simpl; auto.
  now rewrite IH.
Qed.

Lemma all_enqueued_bind P {A B} (m : run call A) (k : A -> run call B) :
  all_enqueued P m -> (forall a, all_enqueued P (k a)) ->
  all_enqueued P (bind m k).
Proof.
  unfold all_enqueued, enqueued. intros Hm Hk.
  rewrite calls_bind, enqueued_of_app. apply Forall_app. split; [exact Hm |].
  destruct (result m); [apply Hk | constructor | constructor].
Qed.

Lemma all_enqueued_pure P {A} (r : res A) : all_enqueued P (pure r).
Proof. unfold all_enqueued, enqueued. rewrite calls_pure. constructor. Qed.

Lemma all_enqueued_ret P {A} (a : A) : all_enqueued P (@ret call A a).
Proof. constructor. Qed.

Lemma all_enqueued_return P {A} : all_enqueued P (@return_ call A).
Proof. constructor. Qed.

Lemma all_enqueued_log P lvl text : all_enqueued P (log lvl text).
Proof. constructor. Qed.

Lemma all_enqueued_add P e : P e -> all_enqueued P (add_to_queue e).
Proof. intros H. repeat constructor. exact H. Qed.

Lemma all_enqueued_try P {A} (body : run call A) handler :
  all_enqueued P body -> (forall e, all_enqueued P (handler e)) ->
  all_enqueued P (try_except body handler).
Proof.
  unfold all_enqueued, enqueued. intros Hb Hh.
  rewrite calls_try_except, enqueued_of_app. apply Forall_app.
  split; [exact Hb |].
  destruct (result body); [constructor | constructor | apply Hh].
Qed.

Lemma all_enqueued_if P {A} (b : bool) (m1 m2 : run call A) :
  all_enqueued P m1 -> all_enqueued P m2 ->
  all_enqueued P (if b then m1 else m2).
Proof. now destruct b. Qed.

Create HintDb enq discriminated.
Hint Resolve all_enqueued_pure all_enqueued_ret all_enqueued_return
  all_enqueued_log all_enqueued_add all_enqueued_if : enq.

Ltac enq_step :=
  first
    [ apply all_enqueued_bind; [ | intros ? ]
    | apply all_enqueued_try; [ | intros ? ]
    | apply all_enqueued_if
    | apply all_enqueued_add; simpl
    | solve [ auto with enq ] ].

(** C8. Every entry that the organic endpoint hands to the scoring queue has
    step -1, and its block is the height that the chain-state snapshot shows
    when the request is handled. *)
Theorem organic_entries_step_block (payload : value) (uuid4 : string) :
  Forall (fun e => step e = -1 /\ block e = METAGRAPH_block shared_settings)
    (enqueued (score_response shared_settings payload uuid4)).
Proof.
  change (all_enqueued
            (fun e => step e = -1 /\ block e = METAGRAPH_block shared_settings)
            (score_response shared_settings payload uuid4)).
  unfold score_response, dispatch, inference_branch, web_retrieval_branch.
  repeat enq_step. all: split; reflexivity.
Qed.

(** *** The statements before the dispatch *)

Tactic Notation "step_pure" ident(x) ident(H) :=
  match goal with
  | |- context [bind (pure ?r) _] =>
      destruct r as [? | x] eqn:H;
      [rewrite bind_pure_inl | rewrite bind_pure_inr]
  end.

Lemma score_response_dispatch payload uuid4 body timeout chunks ints :
  reaches_dispatch shared_settings payload body timeout chunks ints ->
  score_response shared_settings payload uuid4 =
  dispatch shared_settings body timeout chunks ints None uuid4.
Proof.
  intros (Hb & Ht & (uids & Hu & Tu & Hi) & Hc & Tc & model & Hm & Tm).
  unfold score_response.
  rewrite Hb, bind_pure_inr, Ht, bind_pure_inr, Hu, bind_pure_inr,
    Hc, bind_pure_inr, Tu, Tc. simpl negb. simpl orb. cbv iota.
  rewrite bind_ret, Hi, bind_pure_inr, Hm, bind_pure_inr, Tm, bind_ret.
  reflexivity.
Qed.

(** A request that does not reach the dispatch enqueues nothing. *)
Lemma score_response_stops payload uuid4 :
  enqueued (score_response shared_settings payload uuid4) = [] \/
  exists body timeout chunks ints,
    reaches_dispatch shared_settings payload body timeout chunks ints.
Proof.
  unfold score_response.
  step_pure body Hb; [now left |].
  step_pure timeout Ht; [now left |].
  step_pure uids Hu; [now left |].
  step_pure chunks Hc; [now left |].
  destruct (truthy uids) eqn:Tu; [| now left].
  destruct (truthy chunks) eqn:Tc; [| now left].
  simpl negb. simpl orb. cbv iota. rewrite bind_ret.
  step_pure ints Hi; [now left |].
  step_pure model Hm; [now left |].
  destruct (truthy model) eqn:Tm.
  - left. destruct (get_model_by_id model); reflexivity.
  - right. exists body, timeout, chunks, ints.
    unfold reaches_dispatch. repeat split; eauto.
Qed.

(** A truthy [model] field ends the request at line 71, whether or not the
    registry knows the model. *)
Lemma model_named_stops payload uuid4 body model :
  py_get payload "body" VNone = inr body ->
  py_get body "model" VNone = inr model ->
  truthy model = true ->
  enqueued (score_response shared_settings payload uuid4) = [].
Proof.
  intros Hb Hm Tm.
  destruct (score_response_stops payload uuid4)
    as [H | (b & t & c & i & Hb' & _ & _ & _ & _ & m & Hm' & Tm')]; auto.
  congruence.
Qed.

(** *** The dispatch *)

Lemma dispatch_other_kind body timeout chunks ints llm uuid4 name :
  py_get body "task" VNone = inr name ->
  py_eq_str name "InferenceTask" = false ->
  py_eq_str name "WebRetrievalTask" = false ->
  dispatch shared_settings body timeout chunks ints llm uuid4 =
  ([closing_log], Ok tt).
Proof.
  intros Hn H1 H2. unfold dispatch.
  now rewrite Hn, bind_pure_inr, H1, H2.
Qed.

Lemma dispatch_web_no_search_term body timeout chunks ints llm uuid4 name e :
  py_get body "task" VNone = inr name ->
  py_eq_str name "InferenceTask" = false ->
  py_eq_str name "WebRetrievalTask" = true ->
  extract_search_term body = inl e ->
  dispatch shared_settings body timeout chunks ints llm uuid4 =
  ([Log INFO "Received Organic WebRetrievalTask with body: {body}";
    Log ERROR
      "Failed to get search term from messages: {ex}, can't score WebRetrievalTask"],
   Ret).
Proof.
  intros Hn H1 H2 He. unfold dispatch, web_retrieval_branch.
  now rewrite Hn, bind_pure_inr, H1, H2, He.
Qed.

Lemma quiet_run_signals_nothing (m : run call unit) :
  not_raised (result m) = true -> forallb is_quiet (calls m) = true ->
  ~ signals_error m.
Proof.
  intros Hr Hq [[e He] | [text Hin]].
  - rewrite He in Hr. discriminate Hr.
  - rewrite forallb_forall in Hq.
    destruct Hin as [H | H]; apply Hq in H; discriminate H.
Qed.

(** C7. For every request whose [uid] list or [chunks] mapping is empty, the
    endpoint logs the condition at error level and returns; it enqueues
    nothing and raises nothing. *)
Theorem empty_uids_or_chunks_skips payload uuid4 uids chunks :
  py_get payload "uid" (VList []) = inr uids ->
  py_get payload "chunks" (VDict []) = inr chunks ->
  truthy uids = false \/ truthy chunks = false ->
  score_response shared_settings payload uuid4 =
    ([Log ERROR
        "Either uids: {uids} or chunks: {chunks} is not valid, skipping scoring"],
     Ret) /\
  enqueued (score_response shared_settings payload uuid4) = [].
Proof.
  intros Hu Hc Hempty.
  assert (Hrun : score_response shared_settings payload uuid4 =
    ([Log ERROR
        "Either uids: {uids} or chunks: {chunks} is not valid, skipping scoring"],
     Ret)).
  { unfold score_response.
    destruct payload; try discriminate Hu.
    destruct (py_get_dict items "body" VNone) as [body ->].
    destruct (py_get_dict items "timeout" (NEURON_TIMEOUT shared_settings))
      as [timeout ->].
    rewrite Hu, Hc, !bind_pure_inr.
    replace (negb (truthy uids) || negb (truthy chunks)) with true
      by (destruct Hempty as [-> | ->];
          [reflexivity | now rewrite orb_true_r]).
    reflexivity. }
  split; [exact Hrun | now rewrite Hrun].
Qed.

(** C5, as the code has it. For every payload whose [task] field is neither
    InferenceTask nor WebRetrievalTask nothing is enqueued, and no error is
    signalled for it: a request that passes the checks on uid, chunks and
    model returns normally, with nothing logged at error or warning level. *)
Theorem other_task_kind_not_enqueued payload uuid4 :
  payload_task payload <> inr (VStr "InferenceTask") ->
  payload_task payload <> inr (VStr "WebRetrievalTask") ->
  enqueued (score_response shared_settings payload uuid4) = [] /\
  (forall body timeout chunks ints,
      reaches_dispatch shared_settings payload body timeout chunks ints ->
      result (score_response shared_settings payload uuid4) = Ok tt /\
      ~ signals_error (score_response shared_settings payload uuid4)).
Proof.
  intros N1 N2.
  assert (Hrun : forall body timeout chunks ints,
             reaches_dispatch shared_settings payload body timeout chunks ints ->
             score_response shared_settings payload uuid4 =
             ([closing_log], Ok tt)).
  { intros body timeout chunks ints Hreach.
    rewrite (score_response_dispatch _ _ _ _ _ _ Hreach).
    destruct Hreach as (Hb & _ & _ & _ & _ & model & Hm & _).
    unfold payload_task in N1, N2. rewrite Hb in N1, N2. simpl in N1, N2.
    destruct (py_get body "task" VNone) as [e | name] eqn:Hn.
    - destruct body; try discriminate Hm.
      destruct (py_get_dict items "task" VNone) as [v Hv]. congruence.
    - apply dispatch_other_kind with (name := name); auto;
        apply py_eq_str_false; congruence. }
  split.
  - destruct (score_response_stops payload uuid4)
      as [H | (b & t & c & i & Hreach)]; auto.
    now rewrite (Hrun _ _ _ _ Hreach).
  - intros body timeout chunks ints Hreach.
    rewrite (Hrun _ _ _ _ Hreach). split; [reflexivity |].
    intros [[e He] | [text [[H | []] | [H | []]]]]; discriminate.
Qed.

(** C6, as the code has it. For every WebRetrievalTask payload for which
    reading the content of the first message raises at line 102 (the messages
    are missing or empty, or the first of them is not a mapping), nothing is
    enqueued; once the request has passed the checks on uid, chunks and
    model, the handler logs the search-term failure at error level and
    returns. *)
Theorem missing_search_term_aborts payload uuid4 e :
  payload_task payload = inr (VStr "WebRetrievalTask") ->
  payload_search_term payload = inl e ->
  enqueued (score_response shared_settings payload uuid4) = [] /\
  (forall body timeout chunks ints,
      reaches_dispatch shared_settings payload body timeout chunks ints ->
      score_response shared_settings payload uuid4 =
      ([Log INFO "Received Organic WebRetrievalTask with body: {body}";
        Log ERROR
          "Failed to get search term from messages: {ex}, can't score WebRetrievalTask"],
       Ret)).
Proof.
  intros Hk Hs.
  assert (Hrun : forall body timeout chunks ints,
             reaches_dispatch shared_settings payload body timeout chunks ints ->
             score_response shared_settings payload uuid4 =
             ([Log INFO "Received Organic WebRetrievalTask with body: {body}";
               Log ERROR
                 "Failed to get search term from messages: {ex}, can't score WebRetrievalTask"],
              Ret)).
  { intros body timeout chunks ints Hreach.
    rewrite (score_response_dispatch _ _ _ _ _ _ Hreach).
    destruct Hreach as (Hb & _).
    unfold payload_task in Hk. unfold payload_search_term in Hs.
    rewrite Hb in Hk, Hs. simpl in Hk, Hs.
    now apply dispatch_web_no_search_term
      with (name := VStr "WebRetrievalTask") (e := e). }
  split; [| exact Hrun].
  destruct (score_response_stops payload uuid4)
    as [H | (b & t & c & i & Hreach)]; auto.
  now rewrite (Hrun _ _ _ _ Hreach).
Qed.

(** *** The response bundle of the inference branch *)

(** X8. The inference branch builds one stream result per requested peer, in
    the order of the request, holding the peer's chunks when the mapping has
    them and [None] otherwise. *)
Lemma inference_bundle_per_uid payload uuid4 body timeout items ints seed :
  reaches_dispatch shared_settings payload body timeout (VDict items) ints ->
  py_get body "task" VNone = inr (VStr "InferenceTask") ->
  res_bind (py_get body "seed" (VInt 0)) to_int = inr seed ->
  map response (enqueued (score_response shared_settings payload uuid4)) =
  [ {| uids := VList (map VInt ints);
       stream_results :=
         map (fun uid => {| accumulated_chunks := chunks_of items uid |}) ints;
       timeout := timeout |} ].
Proof.
  intros Hreach Hk Hseed.
  rewrite (score_response_dispatch _ _ _ _ _ _ Hreach).
  destruct Hreach as (_ & _ & _ & _ & _ & model & Hm & _).
  destruct body as [| | | | | | | bitems]; try discriminate Hm.
  unfold dispatch, inference_branch.
  rewrite Hk, bind_pure_inr. cbn [py_eq_str]. rewrite String.eqb_refl.
  rewrite Hseed.
  destruct (py_get_dict bitems "messages" VNone) as [msgs ->].
  destruct (py_get_dict bitems "model" VNone) as [mid ->].
  destruct (py_get_dict bitems "sampling_parameters"
              (SAMPLING_PARAMS shared_settings)) as [sp ->].
  rewrite (res_mapM_total _
             (fun uid => {| accumulated_chunks := chunks_of items uid |})).
  - reflexivity.
  - intros uid. unfold chunks_of. simpl.
    now destruct (dict_lookup (str_of_int uid) items).
Qed.

(** Whatever the web-retrieval branch enqueues carries the peer list wrapped
    as one element and exactly one stream result. *)
Lemma web_retrieval_bundle_single payload uuid4 body timeout chunks ints :
  reaches_dispatch shared_settings payload body timeout chunks ints ->
  py_get body "task" VNone = inr (VStr "WebRetrievalTask") ->
  Forall (fun e => uids (response e) = VList [VList (map VInt ints)] /\
                   List.length (stream_results (response e)) = 1%nat)
    (enqueued (score_response shared_settings payload uuid4)).
Proof.
  intros Hreach Hk.
  rewrite (score_response_dispatch _ _ _ _ _ _ Hreach).
  unfold dispatch. rewrite Hk, bind_pure_inr. cbn [py_eq_str].
  replace (String.eqb "WebRetrievalTask" "InferenceTask") with false
    by reflexivity.
  rewrite String.eqb_refl.
  match goal with |- Forall ?P (enqueued ?m) => change (all_enqueued P m) end.
  unfold web_retrieval_branch.
  repeat enq_step.
Qed.

(** *** The signature check *)

Lemma verify_untrusted names sig raw address :
  address <> API_HOTKEY shared_settings ->
  verify_scoring_signature shared_settings names (VStr sig) (VBytes raw)
    (VStr address) = inr (Some unexpected_address).
Proof.
  intros Hne. unfold verify_scoring_signature.
  apply String.eqb_neq in Hne. now rewrite Hne.
Qed.

(** What is left of the check for a well-formed request from the trusted
    signer: lines 38-48. *)
Lemma verify_trusted names sig raw :
  verify_scoring_signature shared_settings names (VStr sig) (VBytes raw)
    (VStr (API_HOTKEY shared_settings)) =
  res_bind (lookup_name "sha256" (name_sha256 names)) (fun sha256_hexdigest =>
  res_bind (sha256_hexdigest raw) (fun digest =>
  res_bind (lookup_name "uuid" (name_uuid names)) (fun uuid =>
  res_bind (lookup_name "timestamp" (name_timestamp names)) (fun timestamp =>
  res_bind (lookup_name "signed_for" (name_signed_for names)) (fun signed_for =>
  res_bind (lookup_name "Keypair" (name_Keypair names)) (fun keypair_verify =>
  res_bind
    (keypair_verify (API_HOTKEY shared_settings)
       (message_to_verify digest uuid timestamp signed_for) sig)
    (fun verified =>
  if negb verified then inr (Some signature_mismatch) else inr None))))))).
Proof.
  unfold verify_scoring_signature. now rewrite String.eqb_refl.
Qed.

(** C2, on the requests it is about. In the module as written, the check of
    a well-formed request from the trusted signer stops at line 38 with
    NameError on [sha256], whatever the signature: no message is rebuilt from
    nonce, timestamp and recipient, nothing is verified, and the answer
    "Signature mismatch" is not given. *)
Theorem as_written_trusted_request_raises uuid_repr sig raw :
  verify_scoring_signature shared_settings (api_namespace uuid_repr)
    (VStr sig) (VBytes raw) (VStr (API_HOTKEY shared_settings))
  = inl (NameError "sha256").
Proof. now rewrite verify_trusted. Qed.


End WithDeployment.

End ScoringFacts.

(** ** The validator's constructor *)

Module ValidatorFacts.
Import Py ValidatorNeuron.
Local Set Warnings "-inexact-float".

Lemma sorted_shift (idx : list nat) :
  StronglySorted Nat.lt idx -> StronglySorted Nat.lt (map S idx).
Proof.
  induction 1 as [| i idx Hs IH Hall]; simpl; constructor; auto.
  rewrite Forall_map. eapply Forall_impl; [| exact Hall].
  intros j Hj. simpl. lia.
Qed.

(** The tasks that the filter of lines 51-57 keeps are the tasks at the
    positions, in increasing order, whose probability is above zero. *)
Lemma kept_positions (ts : list string) :
  forall ps : list float,
  exists idx : list nat,
    StronglySorted Nat.lt idx /\
    (forall i, In i idx <->
       exists t p, nth_error ts i = Some t /\ nth_error ps i = Some p /\
                   PrimFloat.ltb 0%float p = true) /\
    map Some
      (map fst (filter (fun tp => PrimFloat.ltb 0%float (snd tp)) (py_zip ts ps)))
    = map (nth_error ts) idx.
Proof.
  induction ts as [| t ts IH]; intros ps.
  - exists []. repeat split; try constructor; try contradiction.
    intros (t & p & Ht & _). destruct i; discriminate.
  - destruct ps as [| p ps].
    + exists []. repeat split; try constructor; try contradiction.
      intros (t' & p & _ & Hp & _). destruct i; discriminate.
    + destruct (IH ps) as (idx & Hsorted & Hin & Hmap).
      assert (Htail : forall j, In (S j) (map S idx) <-> In j idx).
      { intros j. rewrite in_map_iff. split.
        - intros (k & Hk & Hi). now injection Hk as ->.
        - intros Hj. now exists j. }
      assert (Hnth : map (nth_error (t :: ts)) (map S idx)
                     = map (nth_error ts) idx).
      { now rewrite map_map. }
      simpl. destruct (PrimFloat.ltb 0%float p) eqn:Hp.
      * exists (0%nat :: map S idx). split; [| split].
        -- constructor; [now apply sorted_shift |].
           rewrite Forall_map. apply Forall_forall. intros; lia.
        -- intros [| j]; simpl.
           ++ split; [intros _; eauto |]. now left.
           ++ rewrite <- Hin, <- Htail. split; [intros [H | H] |]; auto.
              discriminate.
        -- simpl. now rewrite Hmap, Hnth.
      * exists (map S idx). split; [| split].
        -- now apply sorted_shift.
        -- intros [| j]; simpl.
           ++ split.
              ** rewrite in_map_iff. intros (k & Hk & _). discriminate.
              ** intros (t' & p' & _ & Hp' & Hpos). congruence.
           ++ now rewrite <- Hin, <- Htail.
        -- now rewrite Hmap, Hnth.
Qed.

(** C9, as the code has it. The constructor raises ValueError exactly when
    the float that [sum(task_p)] computes -- the weights added from left to
    right, each addition rounded to binary64 -- is not equal to 1, and goes
    on to build the validator otherwise. *)
Theorem task_probabilities_checked (neuron : NeuronConfig) :
  (PrimFloat.eqb (fold_left PrimFloat.add (task_p neuron) 0%float) 1%float
     = false
   <->
   Validator_init neuron
     = inl (ValueError, "Task probabilities do not sum to 1."))
  /\
  (PrimFloat.eqb (fold_left PrimFloat.add (task_p neuron) 0%float) 1%float
     = true
   <-> exists v, Validator_init neuron = inr v).
Proof.
  unfold Validator_init, py_sum.
  destruct (PrimFloat.eqb (fold_left PrimFloat.add (task_p neuron) 0%float)
              1%float); simpl; split; split.
  - discriminate.
  - discriminate.
  - eauto.
  - reflexivity.
  - reflexivity.
  - reflexivity.
  - discriminate.
  - intros [v Hv]. discriminate.
Qed.

(** Against C9 as stated: the weights 1 and 1e-17 do not sum to 1, yet the
    rounded sum is 1 and the constructor goes on. *)
Lemma rounded_sum_accepts_excess :
  ~ spec_weights_sum_to_one
      {| tasks := ["qa"; "math"]; task_p := [1; 1e-17]%float |} /\
  Validator_init {| tasks := ["qa"; "math"]; task_p := [1; 1e-17]%float |}
  = inr {| active_tasks := ["qa"; "math"];
           reward_pipeline := {| selected_tasks := ["qa"; "math"] |} |}.
Proof.
  split.
  - unfold spec_weights_sum_to_one. intros H. vm_compute in H. discriminate H.
  - vm_compute. reflexivity.
Qed.

(** The weights written 0.7, 0.2 and 0.1: added from left to right they give
    0.9999999999999999, and the constructor raises. *)
Example rounded_sum_rejects_tenths :
  Validator_init {| tasks := ["qa"; "summarization"; "math"];
                    task_p := [0.7; 0.2; 0.1]%float |}
  = inl (ValueError, "Task probabilities do not sum to 1.").
Proof. vm_compute. reflexivity. Qed.

(** The weights 0.5, 0.3 and 0.2 of the specification's example sum to 1
    as numbers too. *)
Example half_third_fifth_sum_to_one :
  spec_weights_sum_to_one
    {| tasks := ["qa"; "summarization"; "math"];
       task_p := [0.5; 0.3; 0.2]%float |}.
Proof. vm_compute. reflexivity. Qed.

(** The two configurations of the specification's example. *)
Example weights_summing_to_one_start :
  exists v, Validator_init {| tasks := ["qa"; "summarization"; "math"];
                              task_p := [0.5; 0.3; 0.2]%float |} = inr v.
Proof. eexists. vm_compute. reflexivity. Qed.

Example weights_summing_to_less_rejected :
  Validator_init {| tasks := ["qa"; "summarization"; "math"];
                    task_p := [0.5; 0.3; 0.1]%float |}
  = inl (ValueError, "Task probabilities do not sum to 1.").
Proof. vm_compute. reflexivity. Qed.

(** C10. After a successful construction the active tasks are the configured
    tasks at the positions whose probability is strictly above zero, each
    position once and in the order of the configuration, and the reward
    pipeline is built from exactly these tasks. *)
Theorem active_tasks_are_positive (neuron : NeuronConfig) (v : Validator) :
  Validator_init neuron = inr v ->
  selected_tasks (reward_pipeline v) = active_tasks v /\
  exists idx : list nat,
    StronglySorted Nat.lt idx /\
    (forall i, In i idx <-> exists t, positive_at neuron i t) /\
    map Some (active_tasks v) = map (nth_error (tasks neuron)) idx.
Proof.
  unfold Validator_init.
  destruct (PrimFloat.eqb (py_sum (task_p neuron)) 1%float); [| discriminate].
  simpl. intros H. injection H as <-. simpl. split; [reflexivity |].
  destruct (kept_positions (tasks neuron) (task_p neuron))
    as (idx & Hsorted & Hin & Hmap).
  exists idx. repeat split; auto.
  - intros Hi. apply Hin in Hi. destruct Hi as (t & p & H). exists t, p. exact H.
  - intros (t & p & H). apply Hin. eauto.
Qed.

(** Three tasks, the second with probability zero. *)
Lemma active_tasks_are_positive_witness :
  let neuron := {| tasks := ["qa"; "summarization"; "math"];
                   task_p := [0.5; 0; 0.5]%float |} in
  let v := {| active_tasks := ["qa"; "math"];
              reward_pipeline := {| selected_tasks := ["qa"; "math"] |} |} in
  selected_tasks (reward_pipeline v) = active_tasks v /\
  exists idx : list nat,
    StronglySorted Nat.lt idx /\
    (forall i, In i idx <-> exists t, positive_at neuron i t) /\
    map Some (active_tasks v) = map (nth_error (tasks neuron)) idx.
Proof.
  intros neuron v. apply (active_tasks_are_positive neuron v).
  vm_compute. reflexivity.
Defined.

End ValidatorFacts.

(** ** The code run on the sample deployment *)

Module OnSample.
Import Py Eff ScoringApi Sample ScoringFacts.

#[local] Existing Instance collaborators.

(** C1, on a request the registry can serve. The sample registry resolves
    "known-model", yet an InferenceTask request naming it returns at line 71
    with no call at all, so nothing reaches the queue; the same request
    without a model is enqueued. *)
Theorem resolvable_model_request_is_dropped :
  get_model_by_id (VStr "known-model") = inr "config of known-model" /\
  score_response settings (inference_request [("model", VStr "known-model")])
    "id-1" = ([], Ret) /\
  List.length (enqueued (score_response settings (inference_request []) "id-1"))
  = 1%nat.
Proof. vm_compute. auto. Qed.

(** The request with a model that the registry does not know: a warning,
    and the same return. *)
Example unknown_model_request_is_dropped :
  score_response settings
    (inference_request [("model", VStr "unknown-model-x")]) "id-1"
  = ([Log WARNING
        "Organic request with model {body.get('model')} made but the model cannot be found in model zoo. Skipping scoring."],
     Ret).
Proof. vm_compute. reflexivity. Qed.

(** C4, on a WebRetrievalTask request for peers 1, 2 and 3 of which 1 and 3
    answered. The bundle that is enqueued holds the whole peer list as its
    single uid and a single stream result, whose chunks are the keys of the
    chunks mapping. *)
Theorem web_retrieval_bundle_is_not_per_uid :
  map response
    (enqueued
       (score_response settings (web_retrieval_request one_message) "id-1"))
  = [ {| uids := VList [VList [VInt 1; VInt 2; VInt 3]];
         stream_results :=
           [ {| accumulated_chunks := VList [VStr "1"; VStr "3"] |} ];
         timeout := VInt 15 |} ].
Proof. vm_compute. reflexivity. Qed.

(** The same peers and chunks on the inference branch: three stream results,
    in the order of the request, the silent peer with [None]. *)
Example inference_bundle_of_three_peers :
  map response
    (enqueued (score_response settings (inference_request []) "id-1"))
  = [ {| uids := VList [VInt 1; VInt 2; VInt 3];
         stream_results :=
           [ {| accumulated_chunks := VList [VStr "a"; VStr "b"] |};
             {| accumulated_chunks := VNone |};
             {| accumulated_chunks := VList [VStr "c"] |} ];
         timeout := VInt 15 |} ].
Proof. vm_compute. reflexivity. Qed.

(** Against C5 as stated: a request of kind "SummarizationTask" returns
    normally; its only call is the closing log line, at info level. *)
Lemma other_kind_request_raises_nothing :
  payload_task other_kind_request = inr (VStr "SummarizationTask") /\
  score_response settings other_kind_request "id-1" = ([closing_log], Ok tt) /\
  ~ signals_error (score_response settings other_kind_request "id-1").
Proof.
  repeat split; try (vm_compute; reflexivity).
  intros Herr. vm_compute in Herr.
  destruct Herr as [[e He] | [text [[H | []] | [H | []]]]]; discriminate.
Qed.

Lemma other_task_kind_not_enqueued_witness :
  enqueued (score_response settings other_kind_request "id-1") = [] /\
  result (score_response settings other_kind_request "id-1") = Ok tt /\
  ~ signals_error (score_response settings other_kind_request "id-1").
Proof.
  destruct (other_task_kind_not_enqueued settings other_kind_request "id-1")
    as [Hnone Hrun]; try (vm_compute; discriminate).
  split; [exact Hnone |].
  apply (Hrun (VDict [("task", VStr "SummarizationTask");
                      ("messages", one_message)])
           (VInt 15) two_answers [1; 2; 3]).
  unfold reaches_dispatch.
  repeat split; try reflexivity; eexists; repeat split; reflexivity.
Defined.

(** Against C6 as stated: the first message of this WebRetrievalTask request
    has [null] for content, so there is no search term to extract; line 102
    reads [None] without raising, no error is logged, and an entry with a
    [None] query and a [None] search term is enqueued. *)
Lemma null_content_is_enqueued :
  payload_task (web_retrieval_request (VList [VDict [("content", VNone)]]))
    = inr (VStr "WebRetrievalTask") /\
  payload_search_term
    (web_retrieval_request (VList [VDict [("content", VNone)]])) = inr VNone /\
  map dataset_entry
    (enqueued
       (score_response settings
          (web_retrieval_request (VList [VDict [("content", VNone)]])) "id-1"))
    = [DDGDatasetEntry VNone] /\
  ~ signals_error
      (score_response settings
         (web_retrieval_request (VList [VDict [("content", VNone)]])) "id-1").
Proof.
  split; [reflexivity |]. split; [reflexivity |]. split; [reflexivity |].
  apply quiet_run_signals_nothing; reflexivity.
Qed.

(** A WebRetrievalTask request with [messages = []]. *)
Lemma missing_search_term_aborts_witness :
  enqueued (score_response settings (web_retrieval_request (VList [])) "id-1")
  = [] /\
  score_response settings (web_retrieval_request (VList [])) "id-1" =
  ([Log INFO "Received Organic WebRetrievalTask with body: {body}";
    Log ERROR
      "Failed to get search term from messages: {ex}, can't score WebRetrievalTask"],
   Ret).
Proof.
  destruct (missing_search_term_aborts settings
              (web_retrieval_request (VList [])) "id-1" IndexError)
    as [Hnone Hrun]; try reflexivity.
  split; [exact Hnone |].
  apply (Hrun (VDict [("task", VStr "WebRetrievalTask"); ("messages", VList [])])
           (VInt 15) two_answers [1; 2; 3]).
  unfold reaches_dispatch.
  repeat split; try reflexivity; eexists; repeat split; reflexivity.
Defined.

(** A request with an empty peer list. *)
Lemma empty_uids_or_chunks_skips_witness :
  score_response settings no_peer_request "id-1" =
    ([Log ERROR
        "Either uids: {uids} or chunks: {chunks} is not valid, skipping scoring"],
     Ret) /\
  enqueued (score_response settings no_peer_request "id-1") = [].
Proof.
  apply (empty_uids_or_chunks_skips settings no_peer_request "id-1"
           (VList []) two_answers); [reflexivity | reflexivity | now left].
Defined.

End OnSample.

(** ** Further properties of the scoring endpoint *)

Module ScoringMore.
Import Py Eff ScoringApi EffFacts ScoringFacts.

Section WithDeployment.

Context {C : Collaborators}.
Variable shared_settings : Settings.

(** *** The signature check *)

(** X1. The check accepts (returns [None]) exactly when the signature is
    text, the body is bytes, the claimed signer is the configured trusted
    address, each of [sha256], [uuid], [timestamp], [signed_for] and [Keypair]
    is bound in the module, the digest is computed, and the verification
    under the trusted address of the message built from them answers
    [True]. *)
Theorem accepted_iff_trusted_and_verified names signature body signed_by :
  verify_scoring_signature shared_settings names signature body signed_by
    = inr None
  <->
  exists sig raw hexdigest digest u t r keypair_verify,
    signature = VStr sig /\ body = VBytes raw /\
    signed_by = VStr (API_HOTKEY shared_settings) /\
    name_sha256 names = Some hexdigest /\ hexdigest raw = inr digest /\
    name_uuid names = Some u /\ name_timestamp names = Some t /\
    name_signed_for names = Some r /\
    name_Keypair names = Some keypair_verify /\
    keypair_verify (API_HOTKEY shared_settings)
      (message_to_verify digest u t r) sig = inr true.
Proof.
  split.
  - destruct signature as [| | | | sig | | |]; try discriminate.
    destruct body as [| | | | | raw | |]; try discriminate.
    destruct signed_by as [| | | | address | | |]; try discriminate.
    destruct (String.eqb_spec address (API_HOTKEY shared_settings))
      as [-> | Hne];
      [| rewrite (verify_untrusted _ _ _ _ _ Hne); discriminate].
    rewrite verify_trusted. unfold lookup_name.
    destruct (name_sha256 names) as [h |]; simpl; [| discriminate].
    destruct (h raw) as [e | digest] eqn:Hd; simpl; [discriminate |].
    destruct (name_uuid names) as [u |]; simpl; [| discriminate].
    destruct (name_timestamp names) as [t |]; simpl; [| discriminate].
    destruct (name_signed_for names) as [r |]; simpl; [| discriminate].
    destruct (name_Keypair names) as [kp |]; simpl; [| discriminate].
    destruct (kp _ _ _) as [e | [|]] eqn:Hv; simpl; try discriminate.
    intros _. exists sig, raw, h, digest, u, t, r, kp. repeat split; auto.
  - intros (sig & raw & h & digest & u & t & r & kp & -> & -> & -> & Hh & Hd
            & Hu & Ht & Hr & Hk & Hv).
    rewrite verify_trusted, Hh, Hu, Ht, Hr, Hk. simpl.
    rewrite Hd. simpl. now rewrite Hv.
Qed.

(** X2. With the names as [api.py] binds them, the check has two outcomes
    only: for a well-formed request from the trusted signer it raises
    NameError on [sha256]; every other request is answered with the text of
    the first check it fails.  It never accepts and never answers "Signature
    mismatch". *)
Theorem as_written_never_accepts uuid_repr signature body signed_by :
  (((exists sig raw,
        signature = VStr sig /\ body = VBytes raw /\
        signed_by = VStr (API_HOTKEY shared_settings)) /\
    verify_scoring_signature shared_settings (api_namespace uuid_repr)
      signature body signed_by = inl (NameError "sha256"))
   \/
   (~ (exists sig raw,
         signature = VStr sig /\ body = VBytes raw /\
         signed_by = VStr (API_HOTKEY shared_settings)) /\
    exists text,
      In text [invalid_signature_type; body_not_bytes; invalid_signed_by;
               unexpected_address] /\
      verify_scoring_signature shared_settings (api_namespace uuid_repr)
        signature body signed_by = inr (Some text)))
  /\
  verify_scoring_signature shared_settings (api_namespace uuid_repr)
    signature body signed_by <> inr None
  /\
  verify_scoring_signature shared_settings (api_namespace uuid_repr)
    signature body signed_by <> inr (Some signature_mismatch).
Proof.
  assert (Hcases :
    ((exists sig raw,
         signature = VStr sig /\ body = VBytes raw /\
         signed_by = VStr (API_HOTKEY shared_settings)) /\
     verify_scoring_signature shared_settings (api_namespace uuid_repr)
       signature body signed_by = inl (NameError "sha256"))
    \/
    (~ (exists sig raw,
          signature = VStr sig /\ body = VBytes raw /\
          signed_by = VStr (API_HOTKEY shared_settings)) /\
     exists text,
       In text [invalid_signature_type; body_not_bytes; invalid_signed_by;
                unexpected_address] /\
       verify_scoring_signature shared_settings (api_namespace uuid_repr)
         signature body signed_by = inr (Some text))).
  { destruct signature as [| | | | sig | | |];
      try (right; split;
           [intros (? & ? & ? & _); discriminate
           | eexists; split; [| reflexivity]; simpl; tauto]).
    destruct body as [| | | | | raw | |];
      try (right; split;
           [intros (? & ? & _ & ? & _); discriminate
           | eexists; split; [| reflexivity]; simpl; tauto]).
    destruct signed_by as [| | | | address | | |];
      try (right; split;
           [intros (? & ? & _ & _ & ?); discriminate
           | eexists; split; [| reflexivity]; simpl; tauto]).
    destruct (String.eqb_spec address (API_HOTKEY shared_settings))
      as [-> | Hne].
    - left. split; [eauto |]. now rewrite verify_trusted.
    - right. split.
      + intros (s & r & _ & _ & H). congruence.
      + rewrite (verify_untrusted _ _ _ _ _ Hne).
        eexists; split; [| reflexivity]. simpl; tauto. }
  split; [exact Hcases |].
  destruct Hcases as [(_ & ->) | (_ & text & Hin & ->)].
  - split; discriminate.
  - split; [discriminate |].
    intros H. injection H as ->.
    simpl in Hin.
    destruct Hin as [H | [H | [H | [H | []]]]]; discriminate H.
Qed.

(** *** The handler *)

Lemma bind_log {B} lvl text (k : unit -> run call B) :
  bind (log lvl text) k = (Log lvl text :: fst (k tt), snd (k tt)).
Proof. reflexivity. Qed.

Lemma try_except_pure_inr {A} (a : A) (h : exn -> run call A) :
  try_except (pure (inr a)) h = pure (inr a).
Proof. reflexivity. Qed.

Tactic Notation "next_pure" ident(x) ident(H) :=
  match goal with
  | |- context [bind (pure ?r) _] =>
      destruct r as [? | x] eqn:H;
      [rewrite bind_pure_inl | rewrite bind_pure_inr]
  end.

(** When line 102 finds a search term and line 109 collects the contents of
    the messages, the search term is the first of the contents. *)
Lemma search_term_heads_messages body st ms :
  extract_search_term body = inr st ->
  res_bind (py_get body "messages" VNone) py_iter = inr ms ->
  forall cs,
    res_mapM (fun msg => py_getitem_str msg "content") ms = inr cs ->
    hd_error cs = Some st.
Proof.
  unfold extract_search_term. intros He Hi cs Hm.
  destruct (py_get body "messages" VNone) as [e | mv]; [discriminate |].
  simpl in He, Hi.
  destruct (py_getitem0 mv) as [e | first] eqn:H0; [discriminate |].
  simpl in He.
  destruct first as [| | | | | | | items]; try discriminate He.
  destruct mv as [| | | | s | b | l |]; try discriminate H0.
  - destruct s; discriminate H0.
  - destruct b; discriminate H0.
  - destruct l as [| x l]; [discriminate H0 |].
    injection H0 as ->. injection Hi as <-.
    simpl in He, Hm.
    destruct (dict_lookup "content" items) as [v |]; [| discriminate Hm].
    injection He as <-. simpl in Hm.
    destruct (res_mapM _ l); [discriminate Hm |].
    now injection Hm as <-.
Qed.

Lemma inference_branch_entry body timeout chunks ints uuid4 model :
  py_get body "model" VNone = inr model -> truthy model = false ->
  one_entry_or_none uuid4 well_paired
    (inference_branch shared_settings body timeout chunks ints None uuid4).
Proof.
  intros Hm Tm. unfold inference_branch, one_entry_or_none.
  rewrite !bind_log.
  next_pure messages Hmsg; [now left |].
  rewrite Hm, bind_pure_inr.
  next_pure seed Hseed; [now left |].
  next_pure sampling Hsp; [now left |].
  rewrite bind_pure_inr. cbv zeta. rewrite bind_log.
  next_pure results Hres; [now left |].
  right. eexists. simpl. repeat split. exact Tm.
Qed.

Lemma web_retrieval_branch_entry body chunks ints uuid4 :
  one_entry_or_none uuid4 well_paired
    (web_retrieval_branch shared_settings body chunks ints uuid4).
Proof.
  unfold web_retrieval_branch, one_entry_or_none.
  rewrite bind_log.
  destruct (extract_search_term body) as [e | st] eqn:He; [now left |].
  rewrite try_except_pure_inr, bind_pure_inr.
  next_pure msgs Hmsgs; [now left |].
  next_pure contents Hc; [now left |].
  next_pure seed Hseed; [now left |].
  next_pure sampling Hsp; [now left |].
  cbv zeta.
  next_pure items Hitems; [now left |].
  next_pure body_timeout Hbt; [now left |].
  right. eexists. simpl. repeat split.
  eapply search_term_heads_messages; eauto.
Qed.

Lemma one_well_paired_entry_at_most payload uuid4 :
  one_entry_or_none uuid4 well_paired
    (score_response shared_settings payload uuid4).
Proof.
  destruct (score_response_stops shared_settings payload uuid4)
    as [H | (body & timeout & chunks & ints & Hreach)]; [now left |].
  rewrite (score_response_dispatch _ _ _ _ _ _ _ Hreach).
  destruct Hreach as (_ & _ & _ & _ & _ & model & Hm & Tm).
  unfold dispatch.
  next_pure name Hn; [now left |].
  destruct (py_eq_str name "InferenceTask").
  - destruct (inference_branch_entry body timeout chunks ints uuid4 model Hm Tm)
      as [Hnone | (e & He & Hid & Hp & Hr)].
    + left. unfold enqueued in *. rewrite calls_bind, enqueued_of_app, Hnone.
      now destruct (result _).
    + right. exists e. unfold enqueued in *.
      rewrite calls_bind, enqueued_of_app, He, Hr. repeat split; auto.
      unfold result, bind in *. now rewrite Hr.
  - destruct (py_eq_str name "WebRetrievalTask").
    + destruct (web_retrieval_branch_entry body chunks ints uuid4)
        as [Hnone | (e & He & Hid & Hp & Hr)].
      * left. unfold enqueued in *. rewrite calls_bind, enqueued_of_app, Hnone.
        now destruct (result _).
      * right. exists e. unfold enqueued in *.
        rewrite calls_bind, enqueued_of_app, He, Hr. repeat split; auto.
        unfold result, bind in *. now rewrite Hr.
    + left. reflexivity.
Qed.

(** X4. One request enqueues at most one entry; when it enqueues one, the
    entry's identifier is the one drawn for the request and the handler ends
    normally, so a run that raises or returns early has enqueued nothing. *)
Theorem at_most_one_entry payload uuid4 :
  enqueued (score_response shared_settings payload uuid4) = [] \/
  exists e,
    enqueued (score_response shared_settings payload uuid4) = [e] /\
    task_id e = uuid4 /\
    result (score_response shared_settings payload uuid4) = Ok tt.
Proof.
  destruct (one_well_paired_entry_at_most payload uuid4)
    as [H | (e & He & Hid & _ & Hr)]; [now left | right; eauto].
Qed.

(** X5. Every entry the handler enqueues pairs an inference task with the
    empty dataset entry, its query being its messages and its model unset,
    or a web-retrieval task with the dataset entry of its query, the query
    being the content of the first message. *)
Theorem enqueued_entries_well_paired payload uuid4 :
  Forall well_paired (enqueued (score_response shared_settings payload uuid4)).
Proof.
  destruct (one_well_paired_entry_at_most payload uuid4)
    as [-> | (e & -> & _ & Hp & _)]; auto.
Qed.

(** X6. When some peer identifier of a non-empty request does not convert to
    an integer, the handler raises that conversion's exception at line 62,
    before any log line and before anything is enqueued. *)
Theorem unconvertible_uid_raises_first payload uuid4 uids chunks e :
  py_get payload "uid" (VList []) = inr uids ->
  py_get payload "chunks" (VDict []) = inr chunks ->
  truthy uids = true -> truthy chunks = true ->
  res_bind (py_iter uids) (res_mapM to_int) = inl e ->
  score_response shared_settings payload uuid4 = ([], Exc e).
Proof.
  intros Hu Hc Tu Tc He. unfold score_response.
  destruct payload; try discriminate Hu.
  destruct (py_get_dict items "body" VNone) as [body ->].
  destruct (py_get_dict items "timeout" (NEURON_TIMEOUT shared_settings))
    as [timeout ->].
  rewrite Hu, Hc, !bind_pure_inr, Tu, Tc. simpl negb. simpl orb. cbv iota.
  now rewrite bind_ret, He.
Qed.

(** X7. A request whose body has a truthy [model] ends at line 71: the
    handler logs the warning exactly when the registry raises, returns, and
    enqueues nothing in either case. *)
Theorem named_model_ends_request payload uuid4 body uids chunks ints model :
  py_get payload "body" VNone = inr body ->
  py_get payload "uid" (VList []) = inr uids ->
  py_get payload "chunks" (VDict []) = inr chunks ->
  truthy uids = true -> truthy chunks = true ->
  res_bind (py_iter uids) (res_mapM to_int) = inr ints ->
  py_get body "model" VNone = inr model -> truthy model = true ->
  score_response shared_settings payload uuid4 =
  (match get_model_by_id model with
   | inr _ => []
   | inl _ =>
       [Log WARNING
          "Organic request with model {body.get('model')} made but the model cannot be found in model zoo. Skipping scoring."]
   end, Ret).
Proof.
  intros Hb Hu Hc Tu Tc Hi Hm Tm. unfold score_response.
  destruct payload; try discriminate Hu.
  destruct (py_get_dict items "timeout" (NEURON_TIMEOUT shared_settings))
    as [timeout ->].
  rewrite Hb, Hu, Hc, !bind_pure_inr, Tu, Tc. simpl negb. simpl orb. cbv iota.
  rewrite bind_ret, Hi, bind_pure_inr, Hm, bind_pure_inr, Tm.
  now destruct (get_model_by_id model).
Qed.

(** X9. Whatever the web-retrieval branch enqueues carries the whole peer
    list as one element, the timeout of the body (not of the payload), and one
    stream result: the items that iterating [chunks] yields, in order, without
    the [None] ones. *)
Theorem web_retrieval_bundle_chunks payload uuid4 body timeout chunks ints :
  reaches_dispatch shared_settings payload body timeout chunks ints ->
  py_get body "task" VNone = inr (VStr "WebRetrievalTask") ->
  Forall
    (fun e =>
       exists items,
         py_iter chunks = inr items /\
         py_get body "timeout" (NEURON_TIMEOUT shared_settings)
           = inr (ScoringApi.timeout (response e)) /\
         uids (response e) = VList [VList (map VInt ints)] /\
         stream_results (response e) =
           [ {| accumulated_chunks := VList (filter is_not_None items) |} ])
    (enqueued (score_response shared_settings payload uuid4)).
Proof.
  intros Hreach Hk.
  rewrite (score_response_dispatch _ _ _ _ _ _ _ Hreach).
  unfold dispatch. rewrite Hk, bind_pure_inr. cbn [py_eq_str].
  replace (String.eqb "WebRetrievalTask" "InferenceTask") with false
    by reflexivity.
  rewrite String.eqb_refl.
  unfold web_retrieval_branch. rewrite bind_log.
  destruct (extract_search_term body) as [e | st] eqn:He; [constructor |].
  rewrite try_except_pure_inr, bind_pure_inr.
  next_pure msgs Hmsgs; [constructor |].
  next_pure contents Hcs; [constructor |].
  next_pure seed Hseed; [constructor |].
  next_pure sampling Hsp; [constructor |].
  cbv zeta.
  next_pure items Hitems; [constructor |].
  next_pure body_timeout Hbt; [constructor |].
  repeat constructor. exists items. simpl. auto.
Qed.

End WithDeployment.

End ScoringMore.

(** ** Further properties of the validator's constructor *)

Module ValidatorMore.
Import Py ValidatorNeuron.
Local Set Warnings "-inexact-float".

Lemma filter_zip_all_positive (ts : list string) :
  forall ps : list float,
    List.length ts = List.length ps ->
    Forall (fun p => PrimFloat.ltb 0%float p = true) ps ->
    map fst (filter (fun tp => PrimFloat.ltb 0%float (snd tp)) (py_zip ts ps))
    = ts.
Proof.
  induction ts as [| t ts IH]; intros [| p ps] Hlen Hpos;
    try discriminate Hlen; [reflexivity |].
  inversion Hpos as [| ? ? Hp Hrest]; subst.
  simpl. rewrite Hp. simpl. f_equal. apply IH; auto.
Qed.

Lemma py_zip_extra_left {A B} (xs extra : list A) :
  forall ys : list B,
    (List.length ys <= List.length xs)%nat ->
    py_zip (xs ++ extra) ys = py_zip xs ys.
Proof.
  induction xs as [| x xs IH]; intros [| y ys] Hlen; simpl in *;
    try reflexivity.
  - now destruct extra.
  - lia.
  - f_equal. apply IH. lia.
Qed.

(** X10. When every task has a probability and all of them are above zero,
    a successful construction keeps every configured task active, in the
    configured order. *)
Theorem all_positive_all_active (neuron : NeuronConfig) (v : Validator) :
  Validator_init neuron = inr v ->
  List.length (tasks neuron) = List.length (task_p neuron) ->
  Forall (fun p => PrimFloat.ltb 0%float p = true) (task_p neuron) ->
  active_tasks v = tasks neuron.
Proof.
  unfold Validator_init.
  destruct (PrimFloat.eqb (py_sum (task_p neuron)) 1%float); [| discriminate].
  simpl. intros H Hlen Hpos. injection H as <-. simpl.
  now apply filter_zip_all_positive.
Qed.

(** X11. Tasks listed after the last probability take no part: the
    constructor raises no error for them and behaves as if they were not
    configured. *)
Theorem tasks_without_probability_ignored (neuron : NeuronConfig)
    (extra : list string) :
  (List.length (task_p neuron) <= List.length (tasks neuron))%nat ->
  Validator_init {| tasks := tasks neuron ++ extra; task_p := task_p neuron |}
  = Validator_init neuron.
Proof.
  intros Hlen. unfold Validator_init. simpl.
  now rewrite py_zip_extra_left.
Qed.

Lemma all_positive_all_active_witness :
  active_tasks {| active_tasks := ["qa"; "math"];
                  reward_pipeline := {| selected_tasks := ["qa"; "math"] |} |}
  = tasks {| tasks := ["qa"; "math"]; task_p := [0.5; 0.5]%float |}.
Proof.
  apply (all_positive_all_active
           {| tasks := ["qa"; "math"]; task_p := [0.5; 0.5]%float |}).
  - vm_compute. reflexivity.
  - reflexivity.
  - repeat constructor.
Defined.

Lemma tasks_without_probability_ignored_witness :
  Validator_init {| tasks := ["qa"; "math"] ++ ["summarization"];
                    task_p := [0.5; 0.5]%float |}
  = Validator_init {| tasks := ["qa"; "math"]; task_p := [0.5; 0.5]%float |}.
Proof.
  apply (tasks_without_probability_ignored
           {| tasks := ["qa"; "math"]; task_p := [0.5; 0.5]%float |}
           ["summarization"]).
  simpl. lia.
Defined.

End ValidatorMore.

(** ** The further properties on the sample deployment *)

Module OnSampleMore.
Import Py Eff ScoringApi Sample ScoringFacts ScoringMore.

#[local] Existing Instance collaborators.

(** A peer list holding [null]: [int(None)] raises TypeError. *)
Lemma unconvertible_uid_raises_first_witness :
  score_response settings null_peer_request "id-1" = ([], Exc TypeError).
Proof.
  apply (unconvertible_uid_raises_first settings null_peer_request "id-1"
           (VList [VNone]) two_answers TypeError); reflexivity.
Defined.

(** A request naming the model that the sample registry knows. *)
Lemma named_model_ends_request_witness :
  score_response settings (inference_request [("model", VStr "known-model")])
    "id-1" = ([], Ret).
Proof.
  exact (named_model_ends_request settings
           (inference_request [("model", VStr "known-model")]) "id-1"
           (VDict [("task", VStr "InferenceTask"); ("messages", one_message);
                   ("model", VStr "known-model")])
           three_uids two_answers [1; 2; 3] (VStr "known-model")
           eq_refl eq_refl eq_refl eq_refl eq_refl eq_refl eq_refl eq_refl).
Defined.

(** Peers 1, 2 and 3, of which 1 and 3 answered. *)
Lemma inference_bundle_per_uid_witness :
  map response
    (enqueued (score_response settings (inference_request []) "id-1"))
  = [ {| uids := VList (map VInt [1; 2; 3]);
         stream_results :=
           map (fun uid =>
                  {| accumulated_chunks :=
                       chunks_of
                         [("1", VList [VStr "a"; VStr "b"]);
                          ("3", VList [VStr "c"])] uid |})
             [1; 2; 3];
         timeout := VInt 15 |} ].
Proof.
  apply (inference_bundle_per_uid settings (inference_request []) "id-1"
           (VDict [("task", VStr "InferenceTask"); ("messages", one_message)])
           (VInt 15) _ [1; 2; 3] 0).
  - unfold reaches_dispatch.
    repeat split; try reflexivity; eexists; repeat split; reflexivity.
  - reflexivity.
  - reflexivity.
Defined.

(** Peer 7 with the chunks ["a", null, "b"] and a body timeout of 3. *)
Lemma web_retrieval_bundle_chunks_witness :
  Forall
    (fun e =>
       exists items,
         py_iter (VList [VStr "a"; VNone; VStr "b"]) = inr items /\
         py_get
           (VDict [("task", VStr "WebRetrievalTask");
                   ("messages", one_message); ("timeout", VInt 3)])
           "timeout" (NEURON_TIMEOUT settings)
           = inr (ScoringApi.timeout (response e)) /\
         uids (response e) = VList [VList (map VInt [7])] /\
         stream_results (response e) =
           [ {| accumulated_chunks := VList (filter is_not_None items) |} ])
    (enqueued (score_response settings gapped_chunks_request "id-1")).
Proof.
  apply (web_retrieval_bundle_chunks settings gapped_chunks_request "id-1"
           (VDict [("task", VStr "WebRetrievalTask");
                   ("messages", one_message); ("timeout", VInt 3)])
           (VInt 15) (VList [VStr "a"; VNone; VStr "b"]) [7]).
  - unfold reaches_dispatch.
    repeat split; try reflexivity; eexists; repeat split; reflexivity.
  - reflexivity.
Defined.

(** The entry of that request: one stream result, ["a", "b"], timeout 3. *)
Example gapped_chunks_bundle :
  map response
    (enqueued (score_response settings gapped_chunks_request "id-1"))
  = [ {| uids := VList [VList [VInt 7]];
         stream_results :=
           [ {| accumulated_chunks := VList [VStr "a"; VStr "b"] |} ];
         timeout := VInt 3 |} ].
Proof. vm_compute. reflexivity. Qed.

End OnSampleMore.
